(** * CLARE: the pretraining launcher [train.py]

    A shallow embedding of [src/train.py].  The script is orchestration
    code: it parses the invocation arguments, configures logging, seeds the
    random number generators, reads a dataset from object storage, picks a
    (discriminator, generator) class pair by string comparison, builds both
    models and hands them to the [transformers] trainer.

    Every library the script calls is outside the repository, so the
    embedding takes the libraries as a [World] of functions and models
    [main] in a state-and-exception monad.  The state holds the global
    random-generator state and the trace of the external calls made so far,
    each with its outcome; the statements below are about the result of
    [main] and about that trace.

    What the model takes from the libraries:
    - a library operation is a function of its arguments and of the
      generator state, and either returns or raises;
    - the argument parser and the logging calls do not read the generators,
      and the logging calls do not raise;
    - [tokenizer.all_special_ids] and [model.parameters()] are plain reads
      of the object they are asked of;
    - a log line is recorded by what it reports, not by its formatted
      text. *)

From Stdlib Require Import String ZArith List Bool Lia.
Import ListNotations.
Local Open Scope string_scope.
Local Open Scope Z_scope.

(** ** Python values *)

Module Py.

(** A raised Python exception: its class name and its message. *)
Record exn := Exn { exn_class : string; exn_msg : string }.

(** The result of evaluating an expression: a value or a raised exception. *)
Inductive result (A : Type) :=
| Ok (a : A)
| Raise (e : exn).
Arguments Ok {A} a.
Arguments Raise {A} e.

(** A reference to an object created by a library (a filesystem, a table,
    a tokenizer, a model, a trainer): the script never looks inside. *)
Inductive obj := PyObj (id : Z).

(** [f"{x}"] for [x : Optional[str]]: [None] is formatted as ["None"]. *)
Definition format (x : option string) : string :=
  match x with
  | Some s => s
  | None => "None"
  end.

(** [x == lit] for [x : Optional[str]] and a string literal. *)
Definition eq_str (x : option string) (lit : string) : bool :=
  match x with
  | Some s => String.eqb s lit
  | None => false
  end.

(** [sum(...)] over Python integers. *)
Definition sum (xs : list Z) : Z := fold_left Z.add xs 0.

(** A class, named by the module it is imported from. *)
Record cls := Class { cls_module : string; cls_name : string }.

End Py.
Export Py.

(** ** Module constants (lines 24-25) *)

Definition MODEL_SIZES : list string := ["small"; "base"; "large"].
Definition MODEL_TYPES : list string := ["AMCLR"; "ELECTRA"; "AMOS"].

(** ** The argument dataclasses (lines 28-45) *)

Record ModelArguments := {
  model_size : option string;
  model_type : option string
}.

Record DataTrainingArguments := {
  dataset_name : option string
}.

(** [transformers.TrainingArguments]: the script reads [seed] and passes the
    rest along. *)
Record TrainingArguments := {
  seed : Z;
  hyperparameters : list (string * string)
}.

(** A dataclass field as [HfArgumentParser] sees it: its name, its default
    ([None] here stands for [dataclasses.MISSING], i.e. no default), the
    set of accepted values, when the field's type restricts them, and the
    help text. *)
Record dc_field := {
  f_name : string;
  f_default : option (option string);
  f_choices : option (list string);
  f_help : string
}.

(** [', '.join(xs)] *)
Fixpoint join (xs : list string) : string :=
  match xs with
  | [] => ""
  | [x] => x
  | x :: rest => x ++ ", " ++ join rest
  end.

(** [field(default=None, metadata={"help": ...})] on an [Optional[str]]: the
    default is [None] and the type gives no choices. *)
Definition optional_str_field (name help : string) : dc_field :=
  {| f_name := name; f_default := Some None; f_choices := None;
     f_help := help |}.

(** The three fields.  [MODEL_SIZES] and [MODEL_TYPES] are used for the help
    text and nowhere else. *)
Definition model_size_field : dc_field :=
  optional_str_field "model_size" ("Choose from: " ++ join MODEL_SIZES).

Definition model_type_field : dc_field :=
  optional_str_field "model_type" ("Choose from: " ++ join MODEL_TYPES).

Definition dataset_name_field : dc_field :=
  optional_str_field "dataset_name"
    "The name of the dataset to use (via the datasets library).".

(** Invocation arguments, as (field name, value) pairs. *)
Definition argv_t := list (string * string).

(** The value given for a flag; a later occurrence overrides an earlier one. *)
Fixpoint lookup (name : string) (argv : argv_t) : option string :=
  match argv with
  | [] => None
  | (k, v) :: rest =>
      match lookup name rest with
      | Some v' => Some v'
      | None => if String.eqb k name then Some v else None
      end
  end.

Definition required_error (name : string) : exn :=
  Exn "SystemExit" ("the following arguments are required: --" ++ name).

Definition choice_error (name : string) : exn :=
  Exn "SystemExit" ("argument --" ++ name ++ ": invalid choice").

(** How the parser reads one field: a given value is checked against the
    choices, if any; an absent flag takes the default, and is an error
    only for a field without default. *)
Definition parse_field (f : dc_field) (argv : argv_t) : result (option string) :=
  match lookup (f_name f) argv with
  | Some v =>
      match f_choices f with
      | Some cs =>
          if existsb (String.eqb v) cs then Ok (Some v)
          else Raise (choice_error (f_name f))
      | None => Ok (Some v)
      end
  | None =>
      match f_default f with
      | Some d => Ok d
      | None => Raise (required_error (f_name f))
      end
  end.

(** ** External calls and the trace *)

Inductive log_message :=
| Msg_parameters (training_args : TrainingArguments)
    (* f"Training/evaluation parameters {training_args}" *)
| Msg_total_size (n_params : Z).
    (* f"Training new model from scratch - Total size=... params" *)

(** The calls [main] makes into libraries, with their arguments. *)
Inductive call :=
| parse_args_into_dataclasses (argv : argv_t)
| logging_basicConfig
| logger_setLevel (level : string)
| logger_info (msg : log_message)
| set_seed (s : Z)
| GCSFileSystem (storage_options : list (string * string))
| ds_dataset (source : option string) (filesystem : obj)
    (format partitioning : string)
| to_table (arrow_dataset : obj)
| Dataset (arrow_table : obj)
| import_from (module : string) (names : list string)
| AutoTokenizer_from_pretrained (path : string)
| ElectraConfig_from_pretrained (path : string)
| instantiate (c : cls) (config : obj) (special_ids : list Z)
    (generator : option obj)
| Trainer (model : obj) (args : TrainingArguments)
    (train_dataset tokenizer : obj)
| train (trainer : obj).

Inductive value :=
| VNone
| VObj (o : obj)
| VArgs (m : ModelArguments) (d : DataTrainingArguments) (t : TrainingArguments).

Inductive outcome :=
| Returned (v : value)
| Raised (e : exn).

Record event := Ev { ev_call : call; ev_outcome : outcome }.

(** ** The libraries *)

(** The state of the global random number generators. *)
Definition rng_state := Z.

(** A library operation may read and advance the generators, and may raise. *)
Definition ext_op (A : Type) := rng_state -> result A * rng_state.

Record World := {
  (* HfArgumentParser on the TrainingArguments schema *)
  w_parse_TrainingArguments : argv_t -> result TrainingArguments;
  (* transformers.set_seed: the new generator state, from the seed alone *)
  w_set_seed : Z -> result rng_state;
  w_GCSFileSystem : list (string * string) -> ext_op obj;
  w_ds_dataset : option string -> obj -> string -> string -> ext_op obj;
  w_to_table : obj -> ext_op obj;
  w_Dataset : obj -> ext_op obj;
  w_import : string -> list string -> ext_op unit;
  w_AutoTokenizer_from_pretrained : string -> ext_op obj;
  (* the property tokenizer.all_special_ids *)
  w_all_special_ids : obj -> list Z;
  w_ElectraConfig_from_pretrained : string -> ext_op obj;
  (* calling a model class: cls(config, special_ids[, generator]) *)
  w_instantiate : cls -> obj -> list Z -> option obj -> ext_op obj;
  (* [p.numel() for p in model.parameters()] *)
  w_parameters : obj -> list Z;
  w_Trainer : obj -> TrainingArguments -> obj -> obj -> ext_op obj;
  w_train : obj -> ext_op unit
}.

(** ** The monad of [main] *)

Record state := { rng : rng_state; trace : list event }.

Definition init (g : rng_state) : state := {| rng := g; trace := [] |}.

Definition M (A : Type) := state -> result A * state.

Definition ret {A} (a : A) : M A := fun s => (Ok a, s).

(** Sequencing: an exception raised by the first part ends the run. *)
Definition bind {A B} (m : M A) (k : A -> M B) : M B :=
  fun s =>
    match m s with
    | (Ok a, s') => k a s'
    | (Raise e, s') => (Raise e, s')
    end.

Declare Scope py_scope.
Delimit Scope py_scope with py.
Notation "x <- m ;; k" := (bind m (fun x => k))
  (at level 61, m at next level, right associativity) : py_scope.
Notation "m ;; k" := (bind m (fun _ => k))
  (at level 61, right associativity) : py_scope.
Notation "' pat <- m ;; k" := (bind m (fun x => match x with pat => k end))
  (at level 61, pat pattern, m at next level, right associativity) : py_scope.
Local Open Scope py_scope.

(** One external call: run the library, record the call and its outcome. *)
Definition ext {A} (c : call) (op : ext_op A) (v : A -> value) : M A :=
  fun s =>
    match op (rng s) with
    | (Ok a, g) =>
        (Ok a, {| rng := g; trace := trace s ++ [Ev c (Returned (v a))] |})
    | (Raise e, g) =>
        (Raise e, {| rng := g; trace := trace s ++ [Ev c (Raised e)] |})
    end.

(** An operation that does not touch the generators. *)
Definition pure_op {A} (r : result A) : ext_op A := fun g => (r, g).

Definition unit_value (_ : unit) : value := VNone.

Section Main.

Variable W : World.

(** [parser.parse_args_into_dataclasses()] for the parser of line 50. *)
Definition parse_dataclasses (argv : argv_t)
  : result (ModelArguments * DataTrainingArguments * TrainingArguments) :=
  match parse_field model_size_field argv with
  | Raise e => Raise e
  | Ok size =>
  match parse_field model_type_field argv with
  | Raise e => Raise e
  | Ok type =>
  match parse_field dataset_name_field argv with
  | Raise e => Raise e
  | Ok name =>
  match w_parse_TrainingArguments W argv with
  | Raise e => Raise e
  | Ok training_args =>
      Ok ({| model_size := size; model_type := type |},
          {| dataset_name := name |},
          training_args)
  end end end end.

Definition do_parse (argv : argv_t) :=
  ext (parse_args_into_dataclasses argv)
      (pure_op (parse_dataclasses argv))
      (fun '(m, d, t) => VArgs m d t).

(** The logging calls return nothing and do not raise. *)
Definition do_log (c : call) : M unit :=
  ext c (pure_op (Ok tt)) unit_value.

Definition do_set_seed (s : Z) : M unit :=
  ext (set_seed s)
      (fun g => match w_set_seed W s with
                | Ok g' => (Ok tt, g')
                | Raise e => (Raise e, g)
                end)
      unit_value.

Definition do_GCSFileSystem opts :=
  ext (GCSFileSystem opts) (w_GCSFileSystem W opts) VObj.

Definition do_ds_dataset source filesystem data_format partitioning :=
  ext (ds_dataset source filesystem data_format partitioning)
      (w_ds_dataset W source filesystem data_format partitioning) VObj.

Definition do_to_table d := ext (to_table d) (w_to_table W d) VObj.

Definition do_Dataset t := ext (Dataset t) (w_Dataset W t) VObj.

(** [from module import a, b]: binds the two names to the module's classes. *)
Definition do_import (module a b : string) : M (cls * cls) :=
  ext (import_from module [a; b]) (w_import W module [a; b]) unit_value ;;
  ret (Class module a, Class module b).

Definition do_AutoTokenizer_from_pretrained path :=
  ext (AutoTokenizer_from_pretrained path)
      (w_AutoTokenizer_from_pretrained W path) VObj.

Definition do_ElectraConfig_from_pretrained path :=
  ext (ElectraConfig_from_pretrained path)
      (w_ElectraConfig_from_pretrained W path) VObj.

Definition do_instantiate c config ids generator :=
  ext (instantiate c config ids generator)
      (w_instantiate W c config ids generator) VObj.

Definition do_Trainer model args train_dataset tokenizer :=
  ext (Trainer model args train_dataset tokenizer)
      (w_Trainer W model args train_dataset tokenizer) VObj.

Definition do_train trainer :=
  ext (train trainer) (w_train W trainer) unit_value.

(** Lines 88-98: the class pair, as (disc_model, gen_model). *)
Definition select_model (model_type : option string) : M (cls * cls) :=
  if eq_str model_type "AMCLR" then
    '(AMCLR, AMCLRMLM) <- do_import "src.amclr.model" "AMCLR" "AMCLRMLM" ;;
    ret (AMCLR, AMCLRMLM)
  else
    '(SimsElectra, SimsMLM) <-
      (if eq_str model_type "AMOS" then
         do_import "src.amclr.model_amos" "SimsElectra" "SimsMLM"
       else
         do_import "src.amclr.model_electra" "SimsElectra" "SimsMLM") ;;
    ret (SimsElectra, SimsMLM).

(** Lines 48-119.  [argv] is [sys.argv], which the parser reads. *)
Definition main (argv : argv_t) : M unit :=
  (* Parse arguments *)
  '(model_args, data_args, training_args) <- do_parse argv ;;
  (* Setup logging *)
  do_log logging_basicConfig ;;
  do_log (logger_setLevel "INFO") ;;
  (* Log training parameters *)
  do_log (logger_info (Msg_parameters training_args)) ;;
  (* Set random seed *)
  do_set_seed (seed training_args) ;;
  (* Load dataset *)
  let storage_options := [("project", "tribal-octane-442108-e7")] in
  gcs <- do_GCSFileSystem storage_options ;;
  let data_format := "ipc" in
  arrow_dataset <-
    do_ds_dataset (dataset_name data_args) gcs data_format "hive" ;;
  table <- do_to_table arrow_dataset ;;
  datasets <- do_Dataset table ;;
  (* Load tokenizer and model configurations *)
  let disc_config_path :=
    "google/electra-" ++ format (model_size model_args) ++ "-discriminator" in
  let gen_config_path :=
    "google/electra-" ++ format (model_size model_args) ++ "-generator" in
  '(disc_model, gen_model) <- select_model (model_type model_args) ;;
  tokenizer <- do_AutoTokenizer_from_pretrained disc_config_path ;;
  (* Initialize models *)
  gen_config <- do_ElectraConfig_from_pretrained gen_config_path ;;
  gen <- do_instantiate gen_model gen_config
           (w_all_special_ids W tokenizer) None ;;
  disc_config <- do_ElectraConfig_from_pretrained disc_config_path ;;
  disc <- do_instantiate disc_model disc_config
            (w_all_special_ids W tokenizer) (Some gen) ;;
  (* Log model parameters *)
  let n_params := sum (w_parameters W disc) in
  do_log (logger_info (Msg_total_size n_params)) ;;
  (* Initialize Trainer *)
  trainer <- do_Trainer disc training_args datasets tokenizer ;;
  (* Train the model *)
  do_train trainer.

(** Lines 121-123: the entry point for [xla_spawn]. *)
Definition _mp_fn (index : Z) (argv : argv_t) : M unit :=
  main argv.

End Main.

(** ** The arguments the parser produces *)

Definition parsed_model_args (argv : argv_t) : ModelArguments :=
  {| model_size := lookup "model_size" argv;
     model_type := lookup "model_type" argv |}.

Definition parsed_data_args (argv : argv_t) : DataTrainingArguments :=
  {| dataset_name := lookup "dataset_name" argv |}.

(** ** The class pair chosen for a model type *)

(** The module, the discriminator class name and the generator class name
    that lines 88-98 settle on. *)
Definition dispatch (model_type : option string) : string * string * string :=
  if eq_str model_type "AMCLR" then
    ("src.amclr.model", "AMCLR", "AMCLRMLM")
  else if eq_str model_type "AMOS" then
    ("src.amclr.model_amos", "SimsElectra", "SimsMLM")
  else
    ("src.amclr.model_electra", "SimsElectra", "SimsMLM").

Definition dispatch_module mt : string := fst (fst (dispatch mt)).
Definition disc_class mt : cls :=
  Class (dispatch_module mt) (snd (fst (dispatch mt))).
Definition gen_class mt : cls :=
  Class (dispatch_module mt) (snd (dispatch mt)).

(** ** The script of a run

    The calls of a run that nothing interrupts, in order, with what each
    returned.  The objects the libraries hand back are collected in
    [run_objects]. *)

Record run_objects := {
  o_training_args : TrainingArguments;
  o_gcs : obj;
  o_arrow_dataset : obj;
  o_table : obj;
  o_datasets : obj;
  o_tokenizer : obj;
  o_gen_config : obj;
  o_gen : obj;
  o_disc_config : obj;
  o_disc : obj;
  o_trainer : obj
}.

Definition config_path (size : option string) (role : string) : string :=
  "google/electra-" ++ format size ++ role.

Definition script (W : World) (argv : argv_t) (o : run_objects) : list event :=
  let model_args := parsed_model_args argv in
  let data_args := parsed_data_args argv in
  let training_args := o_training_args o in
  let special_ids := w_all_special_ids W (o_tokenizer o) in
  let size := model_size model_args in
  let mt := model_type model_args in
  [ Ev (parse_args_into_dataclasses argv)
       (Returned (VArgs model_args data_args training_args));
    Ev logging_basicConfig (Returned VNone);
    Ev (logger_setLevel "INFO") (Returned VNone);
    Ev (logger_info (Msg_parameters training_args)) (Returned VNone);
    Ev (set_seed (seed training_args)) (Returned VNone);
    Ev (GCSFileSystem [("project", "tribal-octane-442108-e7")])
       (Returned (VObj (o_gcs o)));
    Ev (ds_dataset (dataset_name data_args) (o_gcs o) "ipc" "hive")
       (Returned (VObj (o_arrow_dataset o)));
    Ev (to_table (o_arrow_dataset o)) (Returned (VObj (o_table o)));
    Ev (Dataset (o_table o)) (Returned (VObj (o_datasets o)));
    Ev (import_from (dispatch_module mt)
          [cls_name (disc_class mt); cls_name (gen_class mt)])
       (Returned VNone);
    Ev (AutoTokenizer_from_pretrained (config_path size "-discriminator"))
       (Returned (VObj (o_tokenizer o)));
    Ev (ElectraConfig_from_pretrained (config_path size "-generator"))
       (Returned (VObj (o_gen_config o)));
    Ev (instantiate (gen_class mt) (o_gen_config o) special_ids None)
       (Returned (VObj (o_gen o)));
    Ev (ElectraConfig_from_pretrained (config_path size "-discriminator"))
       (Returned (VObj (o_disc_config o)));
    Ev (instantiate (disc_class mt) (o_disc_config o) special_ids
          (Some (o_gen o)))
       (Returned (VObj (o_disc o)));
    Ev (logger_info (Msg_total_size (sum (w_parameters W (o_disc o)))))
       (Returned VNone);
    Ev (Trainer (o_disc o) training_args (o_datasets o) (o_tokenizer o))
       (Returned (VObj (o_trainer o)));
    Ev (train (o_trainer o)) (Returned VNone) ].

(** A script interrupted at its [n]-th call (counting from 0), which raises
    [e]: the calls before it returned, none follows. *)
Definition interrupted (n : nat) (e : exn) (l : list event) : list event :=
  firstn n l ++
  match nth_error l n with
  | Some ev => [Ev (ev_call ev) (Raised e)]
  | None => []
  end.

(** What a run leaves in the trace: the whole script when [main] returns,
    the script interrupted at the raising call otherwise. *)
Definition follows_script (W : World) (argv : argv_t)
    (run : result unit * state) : Prop :=
  exists o,
    match fst run with
    | Ok _ => trace (snd run) = script W argv o
    | Raise e =>
        exists n, (n < length (script W argv o))%nat /\
                  trace (snd run) = interrupted n e (script W argv o)
    end.

(** A run from a fresh process whose generators are in state [g0]: what
    [main] ends with and the calls it made. *)
Definition run_result (W : World) (argv : argv_t) (g0 : rng_state)
  : result unit := fst (main W argv (init g0)).

Definition run_trace (W : World) (argv : argv_t) (g0 : rng_state)
  : list event := trace (snd (main W argv (init g0))).

(** ** Observations on a trace *)

Definition is_instantiate (ev : event) : bool :=
  match ev_call ev with
  | instantiate _ _ _ _ => true
  | _ => false
  end.

(** The model-class calls of a trace, in order. *)
Definition instantiations (t : list event) : list event :=
  filter is_instantiate t.

Definition raised (ev : event) : bool :=
  match ev_outcome ev with
  | Raised _ => true
  | Returned _ => false
  end.

(** The calls whose library operation is handed the generator state: all of
    them but the parser, the logging calls and [set_seed] itself. *)
Definition reads_generators (c : call) : bool :=
  match c with
  | parse_args_into_dataclasses _ | logging_basicConfig | logger_setLevel _
  | logger_info _ | set_seed _ => false
  | _ => true
  end.

(** What the specification calls invalid invocation arguments: one of the
    three fields is absent, or [model_size] or [model_type] holds a value
    outside its documented set. *)
Definition invalid_arguments (argv : argv_t) : Prop :=
  lookup "model_size" argv = None \/
  lookup "model_type" argv = None \/
  lookup "dataset_name" argv = None \/
  (exists v, lookup "model_size" argv = Some v /\ ~ In v MODEL_SIZES) \/
  (exists v, lookup "model_type" argv = Some v /\ ~ In v MODEL_TYPES).

(** The storage and registry calls go over the network. *)
Definition uses_network (c : call) : bool :=
  match c with
  | GCSFileSystem _ | ds_dataset _ _ _ _ | to_table _
  | AutoTokenizer_from_pretrained _ | ElectraConfig_from_pretrained _ => true
  | _ => false
  end.

(** ** Components and the order of a run *)

(** The five components the specification divides [main] into, by the calls
    each one makes. *)
Inductive component :=
| ConfigurationLoader
| LoggingInitializer
| DatasetLoader
| ModelSelector
| TrainingDriver.

Definition component_of (c : call) : component :=
  match c with
  | parse_args_into_dataclasses _ => ConfigurationLoader
  | logging_basicConfig | logger_setLevel _
  | logger_info (Msg_parameters _) | set_seed _ => LoggingInitializer
  | GCSFileSystem _ | ds_dataset _ _ _ _ | to_table _ | Dataset _ =>
      DatasetLoader
  | import_from _ _ | AutoTokenizer_from_pretrained _
  | ElectraConfig_from_pretrained _ | instantiate _ _ _ _ => ModelSelector
  | logger_info (Msg_total_size _) | Trainer _ _ _ _ | train _ =>
      TrainingDriver
  end.

Definition component_eqb (a b : component) : bool :=
  match a, b with
  | ConfigurationLoader, ConfigurationLoader
  | LoggingInitializer, LoggingInitializer
  | DatasetLoader, DatasetLoader
  | ModelSelector, ModelSelector
  | TrainingDriver, TrainingDriver => true
  | _, _ => false
  end.

Definition in_component (k : component) (ev : event) : bool :=
  component_eqb (component_of (ev_call ev)) k.

(** ** Calls by kind *)

Definition is_import (ev : event) : bool :=
  match ev_call ev with
  | import_from _ _ => true
  | _ => false
  end.

(** The imports of a trace, in order. *)
Definition imports (t : list event) : list event := filter is_import t.

(** The storage and dataset calls of a trace (lines 68-83), in order. *)
Definition loader_calls (t : list event) : list event :=
  filter (in_component DatasetLoader) t.

Definition is_logger_info (ev : event) : bool :=
  match ev_call ev with
  | logger_info _ => true
  | _ => false
  end.

(** The lines logged by [logger.info], in order. *)
Definition log_lines (t : list event) : list event :=
  filter is_logger_info t.

(** ** What a selection is

    [selects W mt s module disc gen]: from state [s], [select_model] on
    [mt] imports the names [disc] and [gen] from [module]; when the import
    returns, it yields the classes [module.disc] as [disc_model] and
    [module.gen] as [gen_model], and when the import raises, so does the
    selection. *)
Definition selects (W : World) (mt : option string) (s : state)
    (module disc gen : string) : Prop :=
  match w_import W module [disc; gen] (rng s) with
  | (Ok _, g) =>
      select_model W mt s =
      (Ok ({| cls_module := module; cls_name := disc |},
           {| cls_module := module; cls_name := gen |}),
       {| rng := g;
          trace := trace s ++
                   [Ev (import_from module [disc; gen]) (Returned VNone)] |})
  | (Raise e, g) =>
      select_model W mt s =
      (Raise e,
       {| rng := g;
          trace := trace s ++
                   [Ev (import_from module [disc; gen]) (Raised e)] |})
  end.

(** The class a model-class call is made on, by its role: line 103 calls
    the generator class without a generator argument, line 104 calls the
    discriminator class with one. *)
Definition class_in_role (module disc gen : string) (generator : option obj)
  : cls :=
  match generator with
  | None => {| cls_module := module; cls_name := gen |}
  | Some _ => {| cls_module := module; cls_name := disc |}
  end.

(** [model_type = mt] selects the pair ([module.disc], [module.gen]): the
    selection block does, and so does every model-class call of a run on
    that model type. *)
Definition selected_pair (W : World) (mt : option string)
    (module disc gen : string) : Prop :=
  (forall s, selects W mt s module disc gen) /\
  (forall argv g0 c config ids generator out,
      lookup "model_type" argv = mt ->
      In (Ev (instantiate c config ids generator) out) (run_trace W argv g0) ->
      c = class_in_role module disc gen generator).

(** ** Storage listings *)

(** The names of the files found under a path. *)
Definition listing := string -> list string.

(** Dataset discovery skips the files whose name begins with ["_"] or
    ["."], such as the [_SUCCESS] marker of a finished job. *)
Definition skipped (name : string) : bool :=
  (prefix "_" name || prefix "." name)%bool.

(** The files of a dataset path that discovery keeps. *)
Definition matching_files (files : listing) (path : option string)
  : list string :=
  match path with
  | Some p => filter (fun name => negb (skipped name)) (files p)
  | None => []
  end.

(** ** Sample worlds

    Concrete libraries to run [main] against.  [sample_world broken] raises
    in the operations selected by [broken] and succeeds in the others. *)

Module Sample.

Inductive op :=
| OpParse | OpSeed | OpStorage | OpDataset | OpTable | OpWrap | OpImport
| OpTokenizer | OpConfig | OpGenerator | OpDiscriminator | OpTrainer
| OpTrain.

Definition op_eqb (a b : op) : bool :=
  match a, b with
  | OpParse, OpParse | OpSeed, OpSeed | OpStorage, OpStorage
  | OpDataset, OpDataset | OpTable, OpTable | OpWrap, OpWrap
  | OpImport, OpImport | OpTokenizer, OpTokenizer | OpConfig, OpConfig
  | OpGenerator, OpGenerator | OpDiscriminator, OpDiscriminator
  | OpTrainer, OpTrainer | OpTrain, OpTrain => true
  | _, _ => false
  end.

Definition failure (o : string) : exn := Exn "RuntimeError" o.

(** Succeeds with [a] unless the operation is broken. *)
Definition unless {A} (broken : bool) (what : string) (a : A) : result A :=
  if broken then Raise (failure what) else Ok a.

Definition sample_world (broken : op -> bool) : World := {|
  w_parse_TrainingArguments argv :=
    unless (broken OpParse) "parse"
      {| seed := 42; hyperparameters := argv |};
  w_set_seed s := unless (broken OpSeed) "set_seed" s;
  w_GCSFileSystem _ := pure_op (unless (broken OpStorage) "gcsfs" (PyObj 1));
  w_ds_dataset _ _ _ _ :=
    pure_op (unless (broken OpDataset) "dataset" (PyObj 2));
  w_to_table _ := pure_op (unless (broken OpTable) "to_table" (PyObj 3));
  w_Dataset _ := pure_op (unless (broken OpWrap) "Dataset" (PyObj 4));
  w_import _ _ := pure_op (unless (broken OpImport) "import" tt);
  w_AutoTokenizer_from_pretrained _ :=
    pure_op (unless (broken OpTokenizer) "tokenizer" (PyObj 5));
  w_all_special_ids _ := [0; 100; 101; 102; 103];
  w_ElectraConfig_from_pretrained path :=
    pure_op (unless (broken OpConfig) "config"
               (PyObj (10 + Z.of_nat (String.length path))));
  (* a new model draws its initial weights from the generators *)
  w_instantiate _ _ _ generator := fun g =>
    match generator with
    | None => (unless (broken OpGenerator) "generator" (PyObj (1000 + g)), g + 1)
    | Some _ =>
        (unless (broken OpDiscriminator) "discriminator" (PyObj (1000 + g)),
         g + 1)
    end;
  w_parameters _ := [7810048; 256; 131072];
  w_Trainer _ _ _ _ := pure_op (unless (broken OpTrainer) "Trainer" (PyObj 6));
  w_train _ := pure_op (unless (broken OpTrain) "train" tt)
|}.

(** Every library call succeeds. *)
Definition happy : World := sample_world (fun _ => false).

(** Exactly the operation [o] raises. *)
Definition failing (o : op) : World := sample_world (op_eqb o).

Definition argv_small : argv_t :=
  [("model_size", "small"); ("model_type", "AMCLR");
   ("dataset_name", "bucket/corpus"); ("output_dir", "out")].

(** A complete command line with a model type outside [MODEL_TYPES]. *)
Definition argv_bert : argv_t :=
  [("model_size", "small"); ("model_type", "BERT");
   ("dataset_name", "bucket/corpus"); ("output_dir", "out")].

(** The libraries over a storage listing.  The reader behaves as pyarrow
    does: a missing source is a [TypeError], a path that holds nothing is
    not found, and a path whose files are all skipped by discovery gives a
    dataset without fragments, which [to_table] loads as an empty table
    and [Dataset] wraps.  Every kept file is taken to be a valid Arrow
    file.  The other libraries answer every call. *)
Definition bucket (files : listing) : World := {|
  w_parse_TrainingArguments := w_parse_TrainingArguments happy;
  w_set_seed := w_set_seed happy;
  w_GCSFileSystem := w_GCSFileSystem happy;
  w_ds_dataset source _ _ _ :=
    pure_op
      match source with
      | None => Raise (Exn "TypeError" "expected a path")
      | Some p =>
          match files p with
          | [] => Raise (Exn "FileNotFoundError" p)
          | _ :: _ => Ok (PyObj 2)
          end
      end;
  w_to_table := w_to_table happy;
  w_Dataset := w_Dataset happy;
  w_import := w_import happy;
  w_AutoTokenizer_from_pretrained := w_AutoTokenizer_from_pretrained happy;
  w_all_special_ids := w_all_special_ids happy;
  w_ElectraConfig_from_pretrained := w_ElectraConfig_from_pretrained happy;
  w_instantiate := w_instantiate happy;
  w_parameters := w_parameters happy;
  w_Trainer := w_Trainer happy;
  w_train := w_train happy
|}.

(** A finished job that wrote no data: only the marker file is there. *)
Definition marker_only : listing := fun _ => ["_SUCCESS"].

End Sample.

(** ** Running the monad *)

Section Running.

Context {A B : Type}.

Lemma run_ext (c : call) (op : ext_op A) (v : A -> value) (s : state) :
  ext c op v s =
  match op (rng s) with
  | (Ok a, g) =>
      (Ok a, {| rng := g; trace := trace s ++ [Ev c (Returned (v a))] |})
  | (Raise e, g) =>
      (Raise e, {| rng := g; trace := trace s ++ [Ev c (Raised e)] |})
  end.
Proof. reflexivity. Qed.

Lemma run_bind_ext (c : call) (op : ext_op A) (v : A -> value)
    (k : A -> M B) (s : state) :
  bind (ext c op v) k s =
  match op (rng s) with
  | (Ok a, g) =>
      k a {| rng := g; trace := trace s ++ [Ev c (Returned (v a))] |}
  | (Raise e, g) =>
      (Raise e, {| rng := g; trace := trace s ++ [Ev c (Raised e)] |})
  end.
Proof.
  unfold bind, ext. destruct (op (rng s)) as [[a | e] g]; reflexivity.
Qed.

Lemma run_bind_ret (a : A) (k : A -> M B) (s : state) :
  bind (ret a) k s = k a s.
Proof. reflexivity. Qed.

End Running.

Lemma run_bind_bind {A B C} (m : M A) (f : A -> M B) (k : B -> M C) s :
  bind (bind m f) k s = bind m (fun a => bind (f a) k) s.
Proof.
  unfold bind. destruct (m s) as [[a | e] s']; reflexivity.
Qed.

Lemma parse_optional_str name help argv :
  parse_field (optional_str_field name help) argv = Ok (lookup name argv).
Proof.
  unfold parse_field; simpl. destruct (lookup name argv); reflexivity.
Qed.

Lemma parse_dataclasses_eq W argv :
  parse_dataclasses W argv =
  match w_parse_TrainingArguments W argv with
  | Ok training_args =>
      Ok (parsed_model_args argv, parsed_data_args argv, training_args)
  | Raise e => Raise e
  end.
Proof.
  unfold parse_dataclasses, model_size_field, model_type_field,
    dataset_name_field.
  rewrite !parse_optional_str. reflexivity.
Qed.

Lemma select_model_dispatch W mt s :
  select_model W mt s =
  bind (ext (import_from (dispatch_module mt)
               [cls_name (disc_class mt); cls_name (gen_class mt)])
            (w_import W (dispatch_module mt)
               [cls_name (disc_class mt); cls_name (gen_class mt)])
            unit_value)
       (fun _ => ret (disc_class mt, gen_class mt)) s.
Proof.
  unfold select_model, disc_class, gen_class, dispatch_module, dispatch,
    do_import.
  destruct (eq_str mt "AMCLR"); [| destruct (eq_str mt "AMOS")];
    cbn [fst snd cls_name];
    rewrite run_bind_bind, !run_bind_ext;
    match goal with
    | |- context [w_import ?W ?m ?l ?g] =>
        destruct (w_import W m l g) as [[[] | e] g']
    end; reflexivity.
Qed.

Lemma run_bind_select_model {B} W mt (k : cls * cls -> M B) s :
  bind (select_model W mt) k s =
  bind (ext (import_from (dispatch_module mt)
               [cls_name (disc_class mt); cls_name (gen_class mt)])
            (w_import W (dispatch_module mt)
               [cls_name (disc_class mt); cls_name (gen_class mt)])
            unit_value)
       (fun _ => k (disc_class mt, gen_class mt)) s.
Proof.
  unfold bind at 1. rewrite select_model_dispatch.
  rewrite !run_bind_ext.
  destruct (w_import _ _ _ _) as [[[] | e] g']; reflexivity.
Qed.

Lemma select_model_default W mt s :
  eq_str mt "AMCLR" = false ->
  eq_str mt "AMOS" = false ->
  select_model W mt s =
  do_import W "src.amclr.model_electra" "SimsElectra" "SimsMLM" s.
Proof.
  intros E1 E2. rewrite select_model_dispatch.
  unfold disc_class, gen_class, dispatch_module, dispatch.
  rewrite E1, E2. reflexivity.
Qed.

Lemma eq_str_other (v lit : string) :
  v <> lit -> eq_str (Some v) lit = false.
Proof.
  intros H. simpl. destruct (String.eqb_spec v lit); congruence.
Qed.

Ltac interrupted_at n :=
  exists n; split; [cbn; lia | reflexivity].

Ltac close_run :=
  cbn [fst snd trace];
  refine (ex_intro _ (Build_run_objects _ _ _ _ _ _ _ _ _ _ _) _);
  first
    [ reflexivity
    | interrupted_at 0%nat | interrupted_at 1%nat | interrupted_at 2%nat
    | interrupted_at 3%nat | interrupted_at 4%nat | interrupted_at 5%nat
    | interrupted_at 6%nat | interrupted_at 7%nat | interrupted_at 8%nat
    | interrupted_at 9%nat | interrupted_at 10%nat | interrupted_at 11%nat
    | interrupted_at 12%nat | interrupted_at 13%nat | interrupted_at 14%nat
    | interrupted_at 15%nat | interrupted_at 16%nat | interrupted_at 17%nat ].

(** One call of the run: rewrite the sequencing, split on what the library
    answers. *)
Ltac run_call :=
  first [rewrite run_bind_select_model | idtac];
  first [rewrite run_bind_ext | rewrite run_ext];
  cbn [pure_op rng trace app];
  try match goal with
    | |- context [parse_dataclasses ?W ?argv] =>
        rewrite parse_dataclasses_eq;
        destruct (w_parse_TrainingArguments W argv) as [? | ?]
    | |- context [w_set_seed ?W ?s] =>
        destruct (w_set_seed W s) as [? | ?]
    | |- context [match ?op with pair _ _ => _ end] =>
        destruct op as [[? | ?] ?]
    end.

Lemma main_follows_script W argv g0 :
  follows_script W argv (main W argv (init g0)).
Proof.
  unfold follows_script, main, init, do_parse, do_log, do_set_seed,
    do_GCSFileSystem, do_ds_dataset, do_to_table, do_Dataset,
    do_AutoTokenizer_from_pretrained, do_ElectraConfig_from_pretrained,
    do_instantiate, do_Trainer, do_train.
  repeat (run_call; try close_run).
  Unshelve.
  all: first [exact (PyObj 0) | exact {| seed := 0; hyperparameters := [] |}].
Qed.

Arguments config_path : simpl never.
Arguments dispatch_module : simpl never.
Arguments disc_class : simpl never.
Arguments gen_class : simpl never.
Arguments sum : simpl never.
Arguments lookup : simpl never.

Lemma run_cases W argv g0 :
  exists o,
    (run_result W argv g0 = Ok tt /\ run_trace W argv g0 = script W argv o)
    \/
    (exists n e,
        (n < 18)%nat /\ run_result W argv g0 = Raise e /\
        run_trace W argv g0 = interrupted n e (script W argv o)).
Proof.
  destruct (main_follows_script W argv g0) as [o H].
  exists o. unfold run_result, run_trace.
  destruct (fst (main W argv (init g0))) as [[] | e].
  - left. split; [reflexivity | exact H].
  - right. destruct H as (n & Hn & Ht). exists n, e. auto.
Qed.

(** ** Lists of events *)

Local Open Scope list_scope.

Section Splits.

Variable Q : event -> bool.

(** An event satisfying [Q] comes after a prefix free of such events. *)
Lemma split_after_prefix (l1 l2 pre post : list event) (ev : event) :
  (forall x, In x l1 -> Q x = false) ->
  l1 ++ l2 = pre ++ ev :: post ->
  Q ev = true ->
  exists mid, pre = l1 ++ mid /\ l2 = mid ++ ev :: post.
Proof.
  revert pre. induction l1 as [| x l1 IH]; intros pre Hfree Heq Hev.
  - exists pre. auto.
  - destruct pre as [| y pre]; simpl in Heq; inversion Heq; subst.
    + rewrite (Hfree ev) in Hev by (left; reflexivity). discriminate.
    + destruct (IH pre) as (mid & -> & ->); auto.
      * intros z Hz. apply Hfree. right. exact Hz.
      * exists mid. auto.
Qed.

Lemma split_last (l1 pre post : list event) (x ev : event) :
  (forall y, In y l1 -> Q y = false) ->
  l1 ++ [x] = pre ++ ev :: post ->
  Q ev = true ->
  pre = l1 /\ ev = x /\ post = [].
Proof.
  intros Hfree Heq Hev.
  destruct (split_after_prefix l1 [x] pre post ev Hfree Heq Hev)
    as (mid & -> & Hx).
  destruct mid as [| y mid]; simpl in Hx; inversion Hx; subst.
  - rewrite app_nil_r. auto.
  - destruct mid; discriminate.
Qed.

Lemma no_split (l pre post : list event) (ev : event) :
  (forall x, In x l -> Q x = false) ->
  l = pre ++ ev :: post ->
  Q ev = true -> False.
Proof.
  intros Hfree -> Hev.
  rewrite (Hfree ev) in Hev; [discriminate | apply in_elt].
Qed.

End Splits.

(** ** Case analysis on a run *)

Ltac split_index n k :=
  match k with
  | O => idtac
  | S ?k' => destruct n as [| n]; [ | split_index n k']
  end.

(** Either the run returned and left the whole script, or it was
    interrupted at one of the eighteen calls. *)
Ltac run_analysis W argv g0 :=
  let o := fresh "o" in
  let n := fresh "n" in
  let e := fresh "e" in
  let Hn := fresh "Hn" in
  let Hres := fresh "Hres" in
  let Htr := fresh "Htr" in
  destruct (run_cases W argv g0)
    as [o [[Hres Htr] | (n & e & Hn & Hres & Htr)]];
  [ | split_index n 18%nat; [ .. | exfalso; lia] ];
  rewrite Htr in *; clear Htr;
  rewrite ?Hres in *;
  unfold script in *;
  cbn [interrupted firstn nth_error app ev_call] in *.

(** Go through the events of a trace given by [H : In ev t]. *)
Ltac in_cases H :=
  simpl in H;
  repeat (destruct H as [H | H];
          [ first [ discriminate H
                  | injection H; clear H; intros; subst
                  | subst ]
          | ]);
  try contradiction.

Ltac find_event :=
  simpl; repeat (first [left; reflexivity | right]).

Lemma dispatch_cases (mt : option string) :
  (mt = Some "AMCLR" /\
   dispatch mt = ("src.amclr.model", "AMCLR", "AMCLRMLM")) \/
  (mt = Some "AMOS" /\
   dispatch mt = ("src.amclr.model_amos", "SimsElectra", "SimsMLM")) \/
  (mt <> Some "AMCLR" /\ mt <> Some "AMOS" /\
   dispatch mt = ("src.amclr.model_electra", "SimsElectra", "SimsMLM")).
Proof.
  unfold dispatch. destruct mt as [v |]; simpl.
  - destruct (String.eqb_spec v "AMCLR") as [-> | H1]; [left; auto |].
    destruct (String.eqb_spec v "AMOS") as [-> | H2]; [right; left; auto |].
    right. right. repeat split; congruence.
  - right. right. repeat split; discriminate.
Qed.

Lemma dispatch_selected W mt module disc gen :
  dispatch mt = (module, disc, gen) ->
  selected_pair W mt module disc gen.
Proof.
  intros Hd. split.
  - intros s. unfold selects. rewrite select_model_dispatch.
    unfold disc_class, gen_class, dispatch_module. rewrite Hd.
    cbn [fst snd cls_name]. rewrite run_bind_ext.
    destruct (w_import W module [disc; gen] (rng s)) as [[[] | e] g];
      reflexivity.
  - intros argv g0 c config ids generator out Hmt H. subst mt.
    run_analysis W argv g0; in_cases H;
      cbn [model_type parsed_model_args];
      unfold disc_class, gen_class, dispatch_module; rewrite Hd;
      reflexivity.
Qed.

(** * Properties of the launcher *)

(** ** Sample runs *)

(** The class pairs, by model type. *)
Example class_pairs :
  (disc_class (Some "AMCLR"), gen_class (Some "AMCLR")) =
    (Class "src.amclr.model" "AMCLR", Class "src.amclr.model" "AMCLRMLM") /\
  (disc_class (Some "AMOS"), gen_class (Some "AMOS")) =
    (Class "src.amclr.model_amos" "SimsElectra",
     Class "src.amclr.model_amos" "SimsMLM") /\
  (disc_class (Some "ELECTRA"), gen_class (Some "ELECTRA")) =
    (Class "src.amclr.model_electra" "SimsElectra",
     Class "src.amclr.model_electra" "SimsMLM") /\
  (disc_class None, gen_class None) =
    (Class "src.amclr.model_electra" "SimsElectra",
     Class "src.amclr.model_electra" "SimsMLM").
Proof. repeat split. Qed.

(** [model_type=AMCLR], [model_size=small], every library call answering:
    the run returns, having built [AMCLRMLM] and then [AMCLR] around it. *)
Example run_amclr_small :
  run_result Sample.happy Sample.argv_small 0 = Ok tt /\
  instantiations (run_trace Sample.happy Sample.argv_small 0) =
    [ Ev (instantiate (Class "src.amclr.model" "AMCLRMLM") (PyObj 40)
            [0; 100; 101; 102; 103] None)
         (Returned (VObj (PyObj 1042)));
      Ev (instantiate (Class "src.amclr.model" "AMCLR") (PyObj 44)
            [0; 100; 101; 102; 103] (Some (PyObj 1042)))
         (Returned (VObj (PyObj 1043))) ].
Proof. split; vm_compute; reflexivity. Qed.

(** An unknown [model_size] is only noticed by the registry: here the
    tokenizer fetch raises, after the dataset has been read. *)
Example run_unknown_size :
  let W := Sample.failing Sample.OpTokenizer in
  let argv := [("model_size", "huge"); ("model_type", "ELECTRA")] in
  run_result W argv 0 = Raise (Sample.failure "tokenizer") /\
  map ev_call (skipn 9 (run_trace W argv 0)) =
    [ import_from "src.amclr.model_electra" ["SimsElectra"; "SimsMLM"];
      AutoTokenizer_from_pretrained "google/electra-huge-discriminator" ].
Proof. split; vm_compute; reflexivity. Qed.

(** ** Model selection *)

(** C1.  The class pair is chosen by a three-way dispatch on [model_type].
    For ["AMCLR"] the selection imports from [src.amclr.model] and yields
    the discriminator class [AMCLR] and the generator class [AMCLRMLM]; for
    ["AMOS"] it yields [SimsElectra] and [SimsMLM] of
    [src.amclr.model_amos]; for every other value, ["ELECTRA"], an unknown
    string or [None], it yields [SimsElectra] and [SimsMLM] of
    [src.amclr.model_electra].  In each case a run calls the generator
    class of that pair where it builds the generator and the discriminator
    class where it builds the discriminator. *)
Theorem model_selection_dispatch (W : World) (mt : option string) :
  (mt = Some "AMCLR" ->
   selected_pair W mt "src.amclr.model" "AMCLR" "AMCLRMLM")
  /\
  (mt = Some "AMOS" ->
   selected_pair W mt "src.amclr.model_amos" "SimsElectra" "SimsMLM")
  /\
  (mt <> Some "AMCLR" -> mt <> Some "AMOS" ->
   selected_pair W mt "src.amclr.model_electra" "SimsElectra" "SimsMLM").
Proof.
  destruct (dispatch_cases mt) as [[Hmt Hd] | [[Hmt Hd] | (H1 & H2 & Hd)]].
  - split; [| split]; intros; try congruence.
    apply dispatch_selected, Hd.
  - split; [| split]; intros; try congruence.
    apply dispatch_selected, Hd.
  - split; [| split]; intros; try congruence.
    apply dispatch_selected, Hd.
Qed.

Lemma model_selection_dispatch_witness :
  let W := Sample.happy in
  let imported module names :=
    {| rng := 0; trace := [Ev (import_from module names) (Returned VNone)] |} in
  select_model W (Some "AMCLR") (init 0) =
    (Ok (Class "src.amclr.model" "AMCLR", Class "src.amclr.model" "AMCLRMLM"),
     imported "src.amclr.model" ["AMCLR"; "AMCLRMLM"])
  /\
  select_model W (Some "AMOS") (init 0) =
    (Ok (Class "src.amclr.model_amos" "SimsElectra",
         Class "src.amclr.model_amos" "SimsMLM"),
     imported "src.amclr.model_amos" ["SimsElectra"; "SimsMLM"])
  /\
  select_model W (Some "BERT") (init 0) =
    (Ok (Class "src.amclr.model_electra" "SimsElectra",
         Class "src.amclr.model_electra" "SimsMLM"),
     imported "src.amclr.model_electra" ["SimsElectra"; "SimsMLM"])
  /\
  select_model W None (init 0) =
    (Ok (Class "src.amclr.model_electra" "SimsElectra",
         Class "src.amclr.model_electra" "SimsMLM"),
     imported "src.amclr.model_electra" ["SimsElectra"; "SimsMLM"])
  /\
  (forall c config ids generator out,
      In (Ev (instantiate c config ids generator) out)
         (run_trace W Sample.argv_small 0) ->
      c = class_in_role "src.amclr.model" "AMCLR" "AMCLRMLM" generator).
Proof.
  intros W imported.
  refine (conj _ (conj _ (conj _ (conj _ _)))).
  - exact (proj1 (proj1 (model_selection_dispatch W (Some "AMCLR")) eq_refl)
             (init 0)).
  - exact (proj1 (proj1 (proj2 (model_selection_dispatch W (Some "AMOS")))
                    eq_refl)
             (init 0)).
  - refine (proj1 (proj2 (proj2 (model_selection_dispatch W (Some "BERT")))
                     _ _)
              (init 0)); discriminate.
  - refine (proj1 (proj2 (proj2 (model_selection_dispatch W None)) _ _)
              (init 0)); discriminate.
  - intros c config ids generator out.
    exact (proj2 (proj1 (model_selection_dispatch W (Some "AMCLR")) eq_refl)
             Sample.argv_small 0 c config ids generator out eq_refl).
Defined.

(** ** Configuration loading *)

(** C2, as stated, fails: with [model_size = "huge"] and neither
    [model_type] nor [dataset_name] given, parsing succeeds and the run goes
    on to the storage calls. *)
Lemma configuration_loader_does_not_validate :
  ~ (forall W argv g0,
        invalid_arguments argv ->
        (exists e, parse_dataclasses W argv = Raise e) /\
        forallb (fun ev => negb (uses_network (ev_call ev)))
                (run_trace W argv g0) = true).
Proof.
  intros H.
  destruct (H Sample.happy [("model_size", "huge")] 0) as [[e He] _].
  - unfold invalid_arguments. right. left. reflexivity.
  - vm_compute in He. discriminate He.
Qed.

(** C2, amended.  The three fields are optional and unchecked: an absent
    field is [None] and any string is accepted, whatever [MODEL_SIZES] and
    [MODEL_TYPES] list.  Parsing fails exactly when the [TrainingArguments]
    schema rejects the arguments, with that exception; the run then ends
    with the parser call as its only call, so before any network call. *)
Theorem configuration_loader_accepts (W : World) (argv : argv_t) :
  parse_dataclasses W argv =
    match w_parse_TrainingArguments W argv with
    | Ok training_args =>
        Ok ({| model_size := lookup "model_size" argv;
               model_type := lookup "model_type" argv |},
            {| dataset_name := lookup "dataset_name" argv |},
            training_args)
    | Raise e => Raise e
    end
  /\
  forall g0 e,
    parse_dataclasses W argv = Raise e ->
    run_result W argv g0 = Raise e /\
    run_trace W argv g0 = [Ev (parse_args_into_dataclasses argv) (Raised e)].
Proof.
  split; [apply parse_dataclasses_eq |].
  intros g0 e He. unfold run_result, run_trace, main, do_parse.
  rewrite run_bind_ext. cbn [pure_op rng trace init].
  rewrite He. split; reflexivity.
Qed.

Lemma configuration_loader_accepts_witness :
  let W := Sample.failing Sample.OpParse in
  let argv := Sample.argv_small in
  let e := Sample.failure "parse" in
  parse_dataclasses W argv = Raise e /\
  run_result W argv 0 = Raise e /\
  run_trace W argv 0 = [Ev (parse_args_into_dataclasses argv) (Raised e)].
Proof.
  intros W argv e.
  assert (He : parse_dataclasses W argv = Raise e) by reflexivity.
  split; [exact He |].
  exact (proj2 (configuration_loader_accepts W argv) 0 e He).
Defined.

(** ** Unrecognized model types *)

(** C3, as stated, fails: on a complete command line with
    [model_type = "BERT"], and libraries that answer every call, the
    selection imports the default pair and [main] returns, having built
    and trained it. *)
Lemma unrecognized_model_type_does_not_fail :
  ~ (forall W argv g0,
        (exists v, lookup "model_type" argv = Some v /\ ~ In v MODEL_TYPES) ->
        exists e, run_result W argv g0 = Raise e).
Proof.
  intros H.
  destruct (H Sample.happy Sample.argv_bert 0) as [e He].
  - exists "BERT". split; [reflexivity |].
    simpl. intros [H1 | [H1 | [H1 | []]]]; discriminate H1.
  - vm_compute in He. discriminate He.
Qed.

(** C3, amended.  A [model_type] outside [MODEL_TYPES] is not an error: the
    selection does for it exactly what it does for ["ELECTRA"], that is, it
    imports [SimsElectra] and [SimsMLM] from [src.amclr.model_electra]; the
    selection raises only if that import raises. *)
Theorem unrecognized_model_type_selects_default
    (W : World) (v : string) (s : state) :
  ~ In v MODEL_TYPES ->
  select_model W (Some v) s = select_model W (Some "ELECTRA") s /\
  select_model W (Some v) s =
    do_import W "src.amclr.model_electra" "SimsElectra" "SimsMLM" s /\
  forall e,
    fst (select_model W (Some v) s) = Raise e ->
    fst (w_import W "src.amclr.model_electra" ["SimsElectra"; "SimsMLM"]
           (rng s)) = Raise e.
Proof.
  intros Hv.
  assert (E1 : eq_str (Some v) "AMCLR" = false).
  { apply eq_str_other. intros ->. apply Hv. simpl. auto. }
  assert (E2 : eq_str (Some v) "AMOS" = false).
  { apply eq_str_other. intros ->. apply Hv. simpl. auto. }
  pose proof (select_model_default W (Some v) s E1 E2) as Hdef.
  split; [| split].
  - rewrite Hdef. symmetry. apply select_model_default; reflexivity.
  - exact Hdef.
  - intros e. rewrite Hdef. unfold do_import. rewrite run_bind_ext.
    destruct (w_import _ _ _ _) as [[[] | e'] g']; simpl; congruence.
Qed.

Lemma unrecognized_model_type_selects_default_witness :
  ~ In "BERT" MODEL_TYPES /\
  select_model Sample.happy (Some "BERT") (init 0) =
    select_model Sample.happy (Some "ELECTRA") (init 0).
Proof.
  assert (H : ~ In "BERT" MODEL_TYPES).
  { simpl. intros [H1 | [H1 | [H1 | []]]]; discriminate H1. }
  split; [exact H |].
  exact (proj1 (unrecognized_model_type_selects_default
                  Sample.happy "BERT" (init 0) H)).
Defined.

(** ** The TPU entry point *)

(** C10.  [_mp_fn] ignores its process index: whatever the index, it is
    [main], on the same arguments, libraries and state. *)
Theorem mp_fn_ignores_index (W : World) (index : Z) (argv : argv_t) (s : state) :
  _mp_fn W index argv s = main W argv s /\
  forall index', _mp_fn W index argv s = _mp_fn W index' argv s.
Proof.
  split; [reflexivity | intros index'; reflexivity].
Qed.

(** ** The dataset source *)

(** C9.  Whatever the invocation arguments, the filesystem is created with
    exactly the storage option [project = "tribal-octane-442108-e7"], and
    the dataset is opened on [dataset_name] over that filesystem with format
    ["ipc"] and partitioning ["hive"]: no argument reaches the project, the
    format or the partitioning, and no dataset is ever opened in another
    format. *)
Theorem dataset_source_is_fixed (W : World) (argv : argv_t) (g0 : rng_state) :
  (forall opts out,
      In (Ev (GCSFileSystem opts) out) (run_trace W argv g0) ->
      opts = [("project", "tribal-octane-442108-e7")])
  /\
  (forall source filesystem data_format partitioning out,
      In (Ev (ds_dataset source filesystem data_format partitioning) out)
         (run_trace W argv g0) ->
      source = lookup "dataset_name" argv /\
      data_format = "ipc" /\
      partitioning = "hive" /\
      In (Ev (GCSFileSystem [("project", "tribal-octane-442108-e7")])
             (Returned (VObj filesystem)))
         (run_trace W argv g0)).
Proof.
  split.
  - intros opts out H. run_analysis W argv g0; in_cases H; reflexivity.
  - intros source filesystem data_format partitioning out H.
    run_analysis W argv g0; in_cases H;
      (split; [reflexivity | split; [reflexivity | split; [reflexivity |]]]);
      find_event.
Qed.

Lemma dataset_source_is_fixed_witness :
  let W := Sample.happy in
  let argv := [("dataset_name", "bucket/corpus"); ("format", "parquet");
               ("project", "another-project")] in
  let storage := Ev (GCSFileSystem [("project", "tribal-octane-442108-e7")])
                    (Returned (VObj (PyObj 1))) in
  let dataset := Ev (ds_dataset (Some "bucket/corpus") (PyObj 1) "ipc" "hive")
                    (Returned (VObj (PyObj 2))) in
  In storage (run_trace W argv 0) /\
  In dataset (run_trace W argv 0) /\
  [("project", "tribal-octane-442108-e7")] =
    [("project", "tribal-octane-442108-e7")] /\
  Some "bucket/corpus" = lookup "dataset_name" argv.
Proof.
  intros W argv storage dataset.
  assert (H : In dataset (run_trace W argv 0)) by (vm_compute; tauto).
  pose proof (proj2 (dataset_source_is_fixed W argv 0) _ _ _ _ _ H)
    as (Hsource & _ & _ & Hstorage).
  split; [exact Hstorage |].
  split; [exact H |].
  split; [| exact Hsource].
  exact (proj1 (dataset_source_is_fixed W argv 0) _ _ Hstorage).
Defined.

(** ** Model instantiation *)



(** ** Error propagation *)

Lemma script_returns W argv o :
  forall ev, In ev (script W argv o) -> raised ev = false.
Proof.
  intros ev H. unfold script in H. in_cases H; reflexivity.
Qed.

Lemma In_firstn {A} (n : nat) (l : list A) (x : A) :
  In x (firstn n l) -> In x l.
Proof.
  intros H. rewrite <- (firstn_skipn n l). apply in_or_app. left. exact H.
Qed.

Lemma interrupted_last (n : nat) (e : exn) (l : list event) :
  (n < length l)%nat ->
  exists c, interrupted n e l = firstn n l ++ [Ev c (Raised e)].
Proof.
  intros Hn. unfold interrupted.
  destruct (nth_error l n) as [ev |] eqn:E.
  - exists (ev_call ev). reflexivity.
  - apply nth_error_None in E. lia.
Qed.

(** C7.  Nothing is caught.  A library call that raises is the last call of
    the run, so nothing is retried and nothing is put in its place, and
    [main] ends with that very exception; conversely [main] ends with an
    exception only when its last call raised it. *)
Theorem errors_propagate (W : World) (argv : argv_t) (g0 : rng_state) :
  (forall pre ev post e,
      run_trace W argv g0 = pre ++ ev :: post ->
      ev_outcome ev = Raised e ->
      post = [] /\ run_result W argv g0 = Raise e)
  /\
  (forall e,
      run_result W argv g0 = Raise e ->
      exists pre c, run_trace W argv g0 = pre ++ [Ev c (Raised e)]).
Proof.
  destruct (run_cases W argv g0)
    as [o [[Hres Htr] | (n & e0 & Hn & Hres & Htr)]];
    rewrite Hres, Htr.
  - split.
    + intros pre ev post e H Hout. exfalso.
      apply (no_split raised _ _ _ _ (script_returns W argv o) H).
      unfold raised. rewrite Hout. reflexivity.
    + intros e He. discriminate He.
  - destruct (interrupted_last n e0 (script W argv o)) as [c Hlast];
      [exact Hn |].
    rewrite Hlast. split.
    + intros pre ev post e H Hout.
      assert (Hfree : forall x, In x (firstn n (script W argv o)) ->
                                raised x = false).
      { intros x Hx. apply (script_returns W argv o), (In_firstn n), Hx. }
      destruct (split_last raised _ pre post _ ev Hfree H) as (_ & -> & ->).
      * unfold raised. rewrite Hout. reflexivity.
      * simpl in Hout. inversion Hout. auto.
    + intros e He. inversion He; subst. eauto.
Qed.

Lemma errors_propagate_witness :
  let W := Sample.failing Sample.OpTable in
  let argv := Sample.argv_small in
  let e := Sample.failure "to_table" in
  let ev := Ev (to_table (PyObj 2)) (Raised e) in
  (exists pre, run_trace W argv 0 = pre ++ [ev]) /\
  run_result W argv 0 = Raise e /\
  exists pre c, run_trace W argv 0 = pre ++ [Ev c (Raised e)].
Proof.
  intros W argv e ev.
  pose (pre := firstn 7 (run_trace W argv 0)).
  assert (H : run_trace W argv 0 = pre ++ ev :: []) by (vm_compute; reflexivity).
  assert (Hout : ev_outcome ev = Raised e) by reflexivity.
  pose proof (proj1 (errors_propagate W argv 0) pre ev [] e H Hout)
    as [_ Hres].
  split; [exists pre; exact H |].
  split; [exact Hres |].
  exact (proj2 (errors_propagate W argv 0) e Hres).
Defined.

(** ** Dataset loading before model selection *)

(** Walk a split [H : t = pre ++ ev :: post] of a given trace down to the
    events that satisfy the test in [HQ]. *)
Ltac peel pre H HQ :=
  match type of H with
  | [] = _ => destruct pre; discriminate H
  | _ :: _ = _ =>
      destruct pre as [| ? pre]; simpl in H; injection H as ? H; subst;
      [ try discriminate HQ | peel pre H HQ ]
  end.

(** Walk a split [H : t = pre ++ ev :: post] of a given trace down to the
    places where the given event [ev] stands. *)
Ltac peel_event pre H :=
  match type of H with
  | [] = _ => destruct pre; discriminate H
  | _ :: _ = _ =>
      destruct pre as [| ? pre]; simpl in H;
      [ first [discriminate H | injection H; clear H; intros; subst]
      | injection H as ? H; subst; peel_event pre H ]
  end.

(** C5, as stated, fails.  [main] does not look at what the reader found.
    On a path that holds only a [_SUCCESS] marker, which discovery skips,
    no file matches, yet every call of the Dataset Loader returns (the
    table is empty) and the run goes on to fetch the tokenizer and build
    the models. *)
Lemma empty_dataset_reaches_model_selection :
  ~ (forall (files : listing) (argv : argv_t) (g0 : rng_state),
        matching_files files (lookup "dataset_name" argv) = [] ->
        let t := run_trace (Sample.bucket files) argv g0 in
        (exists ev e,
            In ev t /\ in_component DatasetLoader ev = true /\
            ev_outcome ev = Raised e) /\
        (forall ev, In ev t -> in_component ModelSelector ev = false)).
Proof.
  intros H.
  destruct (H Sample.marker_only Sample.argv_small 0 eq_refl) as [_ Hnone].
  specialize (Hnone (Ev (AutoTokenizer_from_pretrained
                           "google/electra-small-discriminator")
                        (Returned (VObj (PyObj 5))))).
  assert (Hin : In (Ev (AutoTokenizer_from_pretrained
                          "google/electra-small-discriminator")
                       (Returned (VObj (PyObj 5))))
                   (run_trace (Sample.bucket Sample.marker_only)
                      Sample.argv_small 0))
    by (vm_compute; tauto).
  specialize (Hnone Hin). discriminate Hnone.
Qed.

(** C5, amended.  The dataset is loaded before any model is selected, and
    a failed load ends the run.  Every call of the Model Selector (import,
    tokenizer or configuration fetch, model class) comes after [to_table]
    and [Dataset] have returned the table and the dataset.  When a call of
    the Dataset Loader raises, the run ends with that exception and the
    trace holds no call of the Model Selector: no tokenizer fetch, no
    instantiation.  When [Dataset] returns, the next call is the import of
    the model module, whatever the table holds: [main] makes no check of
    its own for a path without matching files. *)
Theorem dataset_load_precedes_model_selection
    (W : World) (argv : argv_t) (g0 : rng_state) :
  (forall pre ev post,
      run_trace W argv g0 = pre ++ ev :: post ->
      in_component ModelSelector ev = true ->
      exists arrow_dataset table datasets,
        In (Ev (to_table arrow_dataset) (Returned (VObj table))) pre /\
        In (Ev (Dataset table) (Returned (VObj datasets))) pre)
  /\
  (forall ev e,
      In ev (run_trace W argv g0) ->
      in_component DatasetLoader ev = true ->
      ev_outcome ev = Raised e ->
      run_result W argv g0 = Raise e /\
      forall ev',
        In ev' (run_trace W argv g0) ->
        in_component ModelSelector ev' = false)
  /\
  (forall pre table datasets post,
      run_trace W argv g0 =
        pre ++ Ev (Dataset table) (Returned (VObj datasets)) :: post ->
      exists module names out post',
        post = Ev (import_from module names) out :: post').
Proof.
  split; [| split].
  - intros pre ev post H HQ.
    run_analysis W argv g0; peel pre H HQ;
      do 3 eexists; split; find_event.
  - intros ev e H HQ Hout.
    run_analysis W argv g0; in_cases H; try discriminate HQ;
      try discriminate Hout;
      simpl in Hout; injection Hout as <-;
      (split; [reflexivity |]);
      intros ev' H'; in_cases H'; reflexivity.
  - intros pre table datasets post H.
    run_analysis W argv g0; peel_event pre H;
      do 4 eexists; reflexivity.
Qed.

Lemma dataset_load_precedes_model_selection_witness :
  let argv := Sample.argv_small in
  let happy_trace := run_trace Sample.happy argv 0 in
  let import := Ev (import_from "src.amclr.model" ["AMCLR"; "AMCLRMLM"])
                   (Returned VNone) in
  let W := Sample.failing Sample.OpDataset in
  let e := Sample.failure "dataset" in
  let ev := Ev (ds_dataset (Some "bucket/corpus") (PyObj 1) "ipc" "hive")
               (Raised e) in
  let empty_trace := run_trace (Sample.bucket Sample.marker_only) argv 0 in
  (happy_trace = firstn 9 happy_trace ++ import :: skipn 10 happy_trace /\
   exists arrow_dataset table datasets,
     In (Ev (to_table arrow_dataset) (Returned (VObj table)))
        (firstn 9 happy_trace) /\
     In (Ev (Dataset table) (Returned (VObj datasets)))
        (firstn 9 happy_trace))
  /\
  (In ev (run_trace W argv 0) /\
   run_result W argv 0 = Raise e /\
   forall ev', In ev' (run_trace W argv 0) ->
               in_component ModelSelector ev' = false)
  /\
  (empty_trace =
     firstn 8 empty_trace ++
     Ev (Dataset (PyObj 3)) (Returned (VObj (PyObj 4))) ::
     skipn 9 empty_trace /\
   exists module names out post',
     skipn 9 empty_trace = Ev (import_from module names) out :: post').
Proof.
  intros argv happy_trace import W e ev empty_trace.
  assert (Hs : run_trace Sample.happy argv 0 =
               firstn 9 happy_trace ++ import :: skipn 10 happy_trace)
    by (vm_compute; reflexivity).
  assert (H : In ev (run_trace W argv 0)) by (vm_compute; tauto).
  assert (He : run_trace (Sample.bucket Sample.marker_only) argv 0 =
               firstn 8 empty_trace ++
               Ev (Dataset (PyObj 3)) (Returned (VObj (PyObj 4))) ::
               skipn 9 empty_trace)
    by (vm_compute; reflexivity).
  split; [| split].
  - split; [exact Hs |].
    exact (proj1 (dataset_load_precedes_model_selection Sample.happy argv 0)
             _ import _ Hs eq_refl).
  - split; [exact H |].
    exact (proj1 (proj2 (dataset_load_precedes_model_selection W argv 0))
             ev e H eq_refl eq_refl).
  - split; [exact He |].
    exact (proj2 (proj2 (dataset_load_precedes_model_selection
                           (Sample.bucket Sample.marker_only) argv 0))
             _ _ _ _ He).
Defined.

(** ** The training driver *)

(** Split a given trace after its first [k] events. *)
Ltac split_trace_at k j :=
  match goal with
  | |- exists pre post, ?t = _ /\ _ =>
      exists (firstn k t), (skipn j t); cbn [firstn skipn]
  | |- exists pre, _ =>
      match goal with
      | |- context [?t = _ ++ _] => exists (firstn k t); cbn [firstn]
      end
  end.

(** C8.  The trainer is built from the discriminator, the training
    arguments, the dataset and the tokenizer: the model given to [Trainer]
    is the object returned by the call of the discriminator class (the one
    that received the generator), the arguments are the parsed
    [TrainingArguments], the dataset is what [Dataset] returned and the
    tokenizer what [AutoTokenizer.from_pretrained] returned.  The call just
    before [Trainer] logs the total parameter count of that model, and
    [train] is called right after [Trainer], on the trainer it returned. *)
Theorem trainer_wraps_discriminator
    (W : World) (argv : argv_t) (g0 : rng_state) :
  (forall model args train_dataset tokenizer out,
      In (Ev (Trainer model args train_dataset tokenizer) out)
         (run_trace W argv g0) ->
      exists pre post,
        run_trace W argv g0 =
          pre ++
          Ev (logger_info
                (Msg_total_size (fold_left Z.add (w_parameters W model) 0)))
             (Returned VNone)
          :: Ev (Trainer model args train_dataset tokenizer) out :: post /\
        (exists config ids gen,
            In (Ev (instantiate (disc_class (lookup "model_type" argv))
                      config ids (Some gen))
                   (Returned (VObj model))) pre) /\
        (exists m d,
            In (Ev (parse_args_into_dataclasses argv)
                   (Returned (VArgs m d args))) pre) /\
        (exists table,
            In (Ev (Dataset table) (Returned (VObj train_dataset))) pre) /\
        (exists path,
            In (Ev (AutoTokenizer_from_pretrained path)
                   (Returned (VObj tokenizer))) pre))
  /\
  (forall trainer out,
      In (Ev (train trainer) out) (run_trace W argv g0) ->
      exists pre model args train_dataset tokenizer,
        run_trace W argv g0 =
          pre ++
          [Ev (Trainer model args train_dataset tokenizer)
              (Returned (VObj trainer));
           Ev (train trainer) out]).
Proof.
  split.
  - intros model args train_dataset tokenizer out H.
    run_analysis W argv g0; in_cases H;
      split_trace_at 15%nat 17%nat;
      (split; [reflexivity |]);
      (split; [do 3 eexists; find_event |]);
      (split; [do 2 eexists; find_event |]);
      (split; [eexists; find_event | eexists; find_event]).
  - intros trainer out H.
    run_analysis W argv g0; in_cases H;
      split_trace_at 16%nat 0%nat;
      do 4 eexists; reflexivity.
Qed.

Lemma trainer_wraps_discriminator_witness :
  let W := Sample.happy in
  let argv := Sample.argv_small in
  let training_args := {| seed := 42; hyperparameters := argv |} in
  let built := Ev (Trainer (PyObj 1043) training_args (PyObj 4) (PyObj 5))
                  (Returned (VObj (PyObj 6))) in
  let started := Ev (train (PyObj 6)) (Returned VNone) in
  In built (run_trace W argv 0) /\
  In started (run_trace W argv 0) /\
  (exists pre post,
      run_trace W argv 0 =
        pre ++
        Ev (logger_info (Msg_total_size (7810048 + 256 + 131072)))
           (Returned VNone)
        :: built :: post) /\
  (exists pre model args train_dataset tokenizer,
      run_trace W argv 0 =
        pre ++
        [Ev (Trainer model args train_dataset tokenizer)
            (Returned (VObj (PyObj 6)));
         started]).
Proof.
  intros W argv training_args built started.
  assert (Hb : In built (run_trace W argv 0)) by (vm_compute; tauto).
  assert (Hs : In started (run_trace W argv 0)) by (vm_compute; tauto).
  split; [exact Hb |].
  split; [exact Hs |].
  split.
  - destruct (proj1 (trainer_wraps_discriminator W argv 0) _ _ _ _ _ Hb)
      as (pre & post & Heq & _).
    exists pre, post. exact Heq.
  - exact (proj2 (trainer_wraps_discriminator W argv 0) _ _ Hs).
Defined.

(** ** Seeding *)

Lemma main_forgets_generators W argv g1 g2 :
  fst (main W argv (init g1)) = fst (main W argv (init g2)) /\
  trace (snd (main W argv (init g1))) = trace (snd (main W argv (init g2))).
Proof.
  unfold main, init, do_parse, do_log, do_set_seed.
  rewrite !run_bind_ext. cbn [pure_op rng trace app].
  rewrite parse_dataclasses_eq.
  destruct (w_parse_TrainingArguments W argv) as [training_args | e];
    [| split; reflexivity].
  do 3 (rewrite !run_bind_ext; cbn [pure_op rng trace app]).
  rewrite !run_bind_ext; cbn [rng trace app].
  destruct (w_set_seed W (seed training_args)) as [g | e];
    split; reflexivity.
Qed.

(** C6.  A run does not depend on the state the generators start in: two
    runs on the same arguments and libraries end the same way and make the
    same calls with the same outcomes, so they build the same models and
    log the same parameter count.  This is because every call that reads
    the generators comes after [set_seed] has returned, and [set_seed] is
    only ever called on the [seed] of the parsed training arguments. *)
Theorem seeded_run_is_deterministic
    (W : World) (argv : argv_t) (g1 g2 : rng_state) :
  run_result W argv g1 = run_result W argv g2 /\
  run_trace W argv g1 = run_trace W argv g2 /\
  (forall n_params out,
      In (Ev (logger_info (Msg_total_size n_params)) out)
         (run_trace W argv g1) ->
      In (Ev (logger_info (Msg_total_size n_params)) out)
         (run_trace W argv g2)) /\
  (forall pre ev post,
      run_trace W argv g1 = pre ++ ev :: post ->
      reads_generators (ev_call ev) = true ->
      exists m d training_args,
        In (Ev (parse_args_into_dataclasses argv)
               (Returned (VArgs m d training_args))) pre /\
        In (Ev (set_seed (seed training_args)) (Returned VNone)) pre) /\
  (forall s out,
      In (Ev (set_seed s) out) (run_trace W argv g1) ->
      exists m d training_args,
        In (Ev (parse_args_into_dataclasses argv)
               (Returned (VArgs m d training_args)))
           (run_trace W argv g1) /\
        s = seed training_args).
Proof.
  destruct (main_forgets_generators W argv g1 g2) as [Hres Htrace].
  split; [exact Hres |].
  split; [exact Htrace |].
  split; [| split].
  - intros n_params out H. unfold run_trace in *. rewrite <- Htrace. exact H.
  - intros pre ev post H HQ.
    run_analysis W argv g1; peel pre H HQ;
      do 3 eexists; split; find_event.
  - intros s out H.
    run_analysis W argv g1; in_cases H;
      do 3 eexists; (split; [find_event | reflexivity]).
Qed.

Lemma seeded_run_is_deterministic_witness :
  let W := Sample.happy in
  let argv := Sample.argv_small in
  let t := run_trace W argv 0 in
  let log := Ev (logger_info (Msg_total_size 7941376)) (Returned VNone) in
  let seeding := Ev (set_seed 42) (Returned VNone) in
  let generator :=
    Ev (instantiate (Class "src.amclr.model" "AMCLRMLM") (PyObj 40)
          [0; 100; 101; 102; 103] None)
       (Returned (VObj (PyObj 1042))) in
  run_trace W argv 0 = run_trace W argv 2024 /\
  In log (run_trace W argv 0) /\
  In log (run_trace W argv 2024) /\
  t = firstn 12 t ++ generator :: skipn 13 t /\
  (exists m d training_args,
      In (Ev (parse_args_into_dataclasses argv)
             (Returned (VArgs m d training_args))) (firstn 12 t) /\
      In (Ev (set_seed (seed training_args)) (Returned VNone))
         (firstn 12 t)) /\
  In seeding t /\
  (exists m d training_args,
      In (Ev (parse_args_into_dataclasses argv)
             (Returned (VArgs m d training_args))) t /\
      42 = seed training_args).
Proof.
  intros W argv t log seeding generator.
  assert (H : In log (run_trace W argv 0)) by (vm_compute; tauto).
  assert (Hs : run_trace W argv 0 = firstn 12 t ++ generator :: skipn 13 t)
    by (vm_compute; reflexivity).
  assert (Hseed : In seeding (run_trace W argv 0)) by (vm_compute; tauto).
  pose proof (seeded_run_is_deterministic W argv 0 2024)
    as (_ & Htrace & Hlog & Hbefore & Hsingle).
  split; [exact Htrace |].
  split; [exact H |].
  split; [exact (Hlog _ _ H) |].
  split; [exact Hs |].
  split; [exact (Hbefore _ generator _ Hs eq_refl) |].
  split; [exact Hseed |].
  exact (Hsingle _ _ Hseed).
Defined.

(** * Further properties of [main] *)

(** ** Registry keys *)

(** X1.  The registry is asked for three artifacts and the keys depend on
    [model_size] alone: the tokenizer is always fetched under the
    discriminator key ["google/electra-{size}-discriminator"], and a
    configuration under the generator key or that same discriminator key.
    Neither [model_type] nor any other argument changes a key. *)
Theorem registry_keys_from_model_size
    (W : World) (argv : argv_t) (g0 : rng_state) :
  let size := lookup "model_size" argv in
  (forall path out,
      In (Ev (AutoTokenizer_from_pretrained path) out) (run_trace W argv g0) ->
      path = ("google/electra-" ++ format size ++ "-discriminator")%string)
  /\
  (forall path out,
      In (Ev (ElectraConfig_from_pretrained path) out) (run_trace W argv g0) ->
      path = ("google/electra-" ++ format size ++ "-generator")%string \/
      path = ("google/electra-" ++ format size ++ "-discriminator")%string).
Proof.
  intros size. subst size. split.
  - intros path out H. run_analysis W argv g0; in_cases H; reflexivity.
  - intros path out H.
    run_analysis W argv g0; in_cases H;
      first [left; reflexivity | right; reflexivity].
Qed.

Lemma registry_keys_from_model_size_witness :
  let W := Sample.happy in
  let argv := [("model_size", "base"); ("model_type", "AMOS")] in
  let tokenizer :=
    Ev (AutoTokenizer_from_pretrained "google/electra-base-discriminator")
       (Returned (VObj (PyObj 5))) in
  let config :=
    Ev (ElectraConfig_from_pretrained "google/electra-base-generator")
       (Returned (VObj (PyObj 39))) in
  In tokenizer (run_trace W argv 0) /\
  In config (run_trace W argv 0) /\
  "google/electra-base-discriminator" =
    ("google/electra-" ++ format (lookup "model_size" argv)
     ++ "-discriminator")%string.
Proof.
  intros W argv tokenizer config.
  assert (Ht : In tokenizer (run_trace W argv 0)) by (vm_compute; tauto).
  assert (Hc : In config (run_trace W argv 0)) by (vm_compute; tauto).
  split; [exact Ht |].
  split; [exact Hc |].
  pose proof (proj2 (registry_keys_from_model_size W argv 0) _ _ Hc) as _.
  exact (proj1 (registry_keys_from_model_size W argv 0) _ _ Ht).
Defined.

(** X2.  A missing [model_size] is not noticed before the registry: [None]
    is formatted into the key, so whenever such a run fetches a tokenizer
    it asks for ["google/electra-None-discriminator"], and it does so only
    after the storage filesystem has been opened. *)
Theorem missing_model_size_reaches_registry
    (W : World) (argv : argv_t) (g0 : rng_state) :
  lookup "model_size" argv = None ->
  forall path out,
    In (Ev (AutoTokenizer_from_pretrained path) out) (run_trace W argv g0) ->
    path = "google/electra-None-discriminator" /\
    exists filesystem,
      In (Ev (GCSFileSystem [("project", "tribal-octane-442108-e7")])
             (Returned (VObj filesystem)))
         (run_trace W argv g0).
Proof.
  intros Hsize path out H.
  run_analysis W argv g0; in_cases H;
    (split; [cbn [model_size parsed_model_args]; rewrite Hsize; reflexivity
            | eexists; find_event]).
Qed.

Lemma missing_model_size_reaches_registry_witness :
  let W := Sample.failing Sample.OpTokenizer in
  let argv := [("model_type", "AMCLR"); ("dataset_name", "bucket/corpus")] in
  let fetch :=
    Ev (AutoTokenizer_from_pretrained "google/electra-None-discriminator")
       (Raised (Sample.failure "tokenizer")) in
  lookup "model_size" argv = None /\
  In fetch (run_trace W argv 0) /\
  exists filesystem,
    In (Ev (GCSFileSystem [("project", "tribal-octane-442108-e7")])
           (Returned (VObj filesystem)))
       (run_trace W argv 0).
Proof.
  intros W argv fetch.
  assert (Hsize : lookup "model_size" argv = None) by reflexivity.
  assert (H : In fetch (run_trace W argv 0)) by (vm_compute; tauto).
  split; [exact Hsize |].
  split; [exact H |].
  exact (proj2 (missing_model_size_reaches_registry W argv 0 Hsize _ _ H)).
Defined.

(** ** Imports *)

(** X3.  The model modules are imported lazily: a run imports at most one
    of them, and only the one its [model_type] selects.  [src.amclr.model]
    is imported only for ["AMCLR"], [src.amclr.model_amos] only for
    ["AMOS"], and [src.amclr.model_electra] only for the other values; in
    each case exactly the discriminator and generator class names are
    imported, in that order. *)
Theorem only_selected_module_imported
    (W : World) (argv : argv_t) (g0 : rng_state) :
  let mt := lookup "model_type" argv in
  (length (imports (run_trace W argv g0)) <= 1)%nat /\
  forall module names out,
    In (Ev (import_from module names) out) (run_trace W argv g0) ->
    (mt = Some "AMCLR" /\ module = "src.amclr.model" /\
     names = ["AMCLR"; "AMCLRMLM"]) \/
    (mt = Some "AMOS" /\ module = "src.amclr.model_amos" /\
     names = ["SimsElectra"; "SimsMLM"]) \/
    (mt <> Some "AMCLR" /\ mt <> Some "AMOS" /\
     module = "src.amclr.model_electra" /\
     names = ["SimsElectra"; "SimsMLM"]).
Proof.
  intros mt. subst mt. split.
  - run_analysis W argv g0; cbn; lia.
  - intros module names out H.
    run_analysis W argv g0; in_cases H;
      cbn [model_type parsed_model_args];
      unfold disc_class, gen_class, dispatch_module;
      destruct (dispatch_cases (lookup "model_type" argv))
        as [[Hmt ->] | [[Hmt ->] | (H1 & H2 & ->)]];
      cbn [fst snd cls_name]; auto 10.
Qed.

Lemma only_selected_module_imported_witness :
  let W := Sample.happy in
  let argv := [("model_size", "small"); ("model_type", "AMOS")] in
  let import :=
    Ev (import_from "src.amclr.model_amos" ["SimsElectra"; "SimsMLM"])
       (Returned VNone) in
  In import (run_trace W argv 0) /\
  (length (imports (run_trace W argv 0%Z)) <= 1)%nat.
Proof.
  intros W argv import.
  assert (H : In import (run_trace W argv 0)) by (vm_compute; tauto).
  pose proof (proj2 (only_selected_module_imported W argv 0) _ _ _ H) as _.
  split; [exact H |].
  exact (proj1 (only_selected_module_imported W argv 0)).
Defined.

(** ** Normal exit *)

(** X4.  [main] returns normally exactly when its last call is
    [trainer.train()] and that call returned; such a run has made all
    eighteen library calls.  In particular a run that returns has read the
    dataset, built both models and trained. *)
Theorem returns_iff_trained (W : World) (argv : argv_t) (g0 : rng_state) :
  (run_result W argv g0 = Ok tt <->
   exists pre trainer,
     run_trace W argv g0 = pre ++ [Ev (train trainer) (Returned VNone)])
  /\
  (run_result W argv g0 = Ok tt ->
   length (run_trace W argv g0) = 18%nat).
Proof.
  split; [split |].
  - intros H.
    run_analysis W argv g0; try discriminate H.
    split_trace_at 17%nat 0%nat. eexists. reflexivity.
  - intros (pre & trainer & H).
    run_analysis W argv g0; try reflexivity;
      apply (f_equal (@rev event)) in H; rewrite rev_unit in H;
      cbn [rev app] in H; discriminate H.
  - intros H. run_analysis W argv g0; try discriminate H. reflexivity.
Qed.

Lemma returns_iff_trained_witness :
  let W := Sample.happy in
  let argv := Sample.argv_small in
  run_result W argv 0 = Ok tt /\
  (exists pre trainer,
      run_trace W argv 0 = pre ++ [Ev (train trainer) (Returned VNone)]) /\
  length (run_trace W argv 0) = 18%nat.
Proof.
  intros W argv.
  assert (H : exists pre trainer,
             run_trace W argv 0 = pre ++ [Ev (train trainer) (Returned VNone)]).
  { exists (firstn 17 (run_trace W argv 0)), (PyObj 6).
    vm_compute. reflexivity. }
  pose proof (proj2 (proj1 (returns_iff_trained W argv 0)) H) as Hres.
  split; [exact Hres |].
  split; [exact (proj1 (proj1 (returns_iff_trained W argv 0)) Hres) |].
  exact (proj2 (returns_iff_trained W argv 0) Hres).
Defined.

(** ** The dataset chain *)

(** X5.  The dataset is read through one chain of four calls, each made at
    most once and each on what the one before returned: the filesystem is
    opened, [ds.dataset] is given that filesystem, [to_table] the dataset
    it returned and [Dataset] the table.  A run never opens a second
    filesystem and never reads the dataset twice; the chain stops at the
    first of its calls that raises. *)
Theorem dataset_chain (W : World) (argv : argv_t) (g0 : rng_state) :
  let calls := loader_calls (run_trace W argv g0) in
  let opts := [("project", "tribal-octane-442108-e7")] in
  let source := lookup "dataset_name" argv in
  calls = [] \/
  (exists out, calls = [Ev (GCSFileSystem opts) out]) \/
  (exists gcs out,
      calls = [Ev (GCSFileSystem opts) (Returned (VObj gcs));
               Ev (ds_dataset source gcs "ipc" "hive") out]) \/
  (exists gcs arrow_dataset out,
      calls = [Ev (GCSFileSystem opts) (Returned (VObj gcs));
               Ev (ds_dataset source gcs "ipc" "hive")
                  (Returned (VObj arrow_dataset));
               Ev (to_table arrow_dataset) out]) \/
  (exists gcs arrow_dataset table out,
      calls = [Ev (GCSFileSystem opts) (Returned (VObj gcs));
               Ev (ds_dataset source gcs "ipc" "hive")
                  (Returned (VObj arrow_dataset));
               Ev (to_table arrow_dataset) (Returned (VObj table));
               Ev (Dataset table) out]).
Proof.
  intros calls opts source. subst calls opts source.
  run_analysis W argv g0;
    first
      [ left; reflexivity
      | right; left; eexists; reflexivity
      | right; right; left; do 2 eexists; reflexivity
      | right; right; right; left; do 3 eexists; reflexivity
      | right; right; right; right; do 4 eexists; reflexivity ].
Qed.

(** ** Log lines *)

(** X6.  [logger.info] is called at most twice.  The first line reports
    the parsed training arguments; the second, if the run gets that far,
    reports a parameter count.  Every line is logged after
    [logging.basicConfig] has installed the handler and the logger's level
    has been set to ["INFO"]. *)
Theorem log_lines_of_a_run (W : World) (argv : argv_t) (g0 : rng_state) :
  (log_lines (run_trace W argv g0) = [] \/
   exists m d training_args out,
     In (Ev (parse_args_into_dataclasses argv)
            (Returned (VArgs m d training_args)))
        (run_trace W argv g0) /\
     let first_line := Ev (logger_info (Msg_parameters training_args)) out in
     (log_lines (run_trace W argv g0) = [first_line] \/
      exists n_params out',
        log_lines (run_trace W argv g0) =
          [first_line; Ev (logger_info (Msg_total_size n_params)) out']))
  /\
  (forall pre ev post,
      run_trace W argv g0 = pre ++ ev :: post ->
      is_logger_info ev = true ->
      In (Ev logging_basicConfig (Returned VNone)) pre /\
      In (Ev (logger_setLevel "INFO") (Returned VNone)) pre).
Proof.
  split.
  - run_analysis W argv g0;
      first
        [ left; reflexivity
        | right; do 4 eexists; cbv zeta;
          (split; [find_event |]);
          first [left; reflexivity | right; do 2 eexists; reflexivity] ].
  - intros pre ev post H HQ.
    run_analysis W argv g0; peel pre H HQ; split; find_event.
Qed.

Lemma log_lines_of_a_run_witness :
  let W := Sample.failing Sample.OpStorage in
  let argv := Sample.argv_small in
  let t := run_trace W argv 0 in
  let line :=
    Ev (logger_info
          (Msg_parameters {| seed := 42; hyperparameters := argv |}))
       (Returned VNone) in
  t = firstn 3 t ++ line :: skipn 4 t /\
  In (Ev logging_basicConfig (Returned VNone)) (firstn 3 t) /\
  In (Ev (logger_setLevel "INFO") (Returned VNone)) (firstn 3 t).
Proof.
  intros W argv t line.
  assert (H : run_trace W argv 0 = firstn 3 t ++ line :: skipn 4 t)
    by (vm_compute; reflexivity).
  split; [exact H |].
  exact (proj2 (log_lines_of_a_run W argv 0) _ line _ H eq_refl).
Defined.
